(** * EZyRB: the RBF approximation and the ReducedOrderModel orchestrator

    A shallow embedding of [ezyrb/rbf.py] and [ezyrb/reducedordermodel.py].

    Python methods mutate their receiver and may raise; they are embedded
    in a state-and-exception monad in which the state reached before an
    exception is kept, as in Python.  The numerical primitives of numpy and
    the scipy solver are external to the two files: they enter through the
    interfaces [Numeric] and [Solver]. *)

From Stdlib Require Import ZArith Floats.
From stdpp Require Import base functions list vector strings.

(** ** Exceptions and the method monad *)

(** The Python exceptions the two modules can raise themselves, and a
    carrier for whatever an external collaborator raises. *)
Inductive exn : Type :=
  | TypeError
  | ZeroDivisionError
  | ValueError
  | ExternalError (msg : string).

Inductive result (A : Type) : Type :=
  | Ok (a : A)
  | Raise (e : exn).
Arguments Ok {A} a.
Arguments Raise {A} e.

(** A method body over receiver (or world) state [S]: it yields a value or
    an exception, together with the state as mutated so far. *)
Definition M (S A : Type) : Type := S → result A * S.

Global Instance M_ret {S} : MRet (M S) := λ A a s, (Ok a, s).

Global Instance M_bind {S} : MBind (M S) := λ A B k m s,
  match m s with
  | (Ok a, s') => k a s'
  | (Raise e, s') => (Raise e, s')
  end.

Definition get {S} : M S S := λ s, (Ok s, s).
Definition modify {S} (f : S → S) : M S unit := λ s, (Ok tt, f s).

(** A pure computation that may raise, run inside a method. *)
Definition lift {S A} (r : result A) : M S A := λ s, (r, s).

(** ** numpy as used by [rbf.py] *)

(** The scalar arithmetic [RBF.fit] asks of numpy.  No law is assumed:
    numpy's scalars, int64 with its wrap-around and float64 with its
    rounding, are an instance. *)
Class Numeric (num : Type) : Type := {
  n_one : num;
  n_of_nat : nat → num;           (* a Python int as a number *)
  n_sub : num → num → num;
  n_mul : num → num → num;
  n_div : num → num → num;        (* numpy true division: never raises *)
  n_max : num → num → num;        (* np.maximum *)
  n_min : num → num → num;        (* np.minimum *)
  n_nonzero : num → bool;         (* truth value used by np.nonzero *)
  n_power : num → num → num;      (* np.power *)
}.

Section NumPy.
Context {num : Type} `{Numeric num}.

(** A two-dimensional array of shape [(length rows, dim)].  A numpy
    array has one dtype: its entries are all integers or all floats. *)
Record ndarray : Type := Array2 {
  dim : nat;
  rows : list (vec num dim);
}.

(** [np.amax(a, axis=0)]: the column-wise maximum.  The reduction has no
    identity, so numpy raises ValueError when there is no row. *)
Definition amax {D} (a : list (vec num D)) : result (vec num D) :=
  match a with
  | [] => Raise ValueError
  | r :: rs => Ok (foldl (vzip_with n_max) r rs)
  end.

(** [np.amin(a, axis=0)]. *)
Definition amin {D} (a : list (vec num D)) : result (vec num D) :=
  match a with
  | [] => Raise ValueError
  | r :: rs => Ok (foldl (vzip_with n_min) r rs)
  end.

(** [edges[np.nonzero(edges)]] on a one-dimensional array. *)
Definition nonzero_entries {D} (edges : vec num D) : list num :=
  filter (fun x => Is_true (n_nonzero x)) (vec_to_list edges).

(** [np.prod] of a one-dimensional array: the entries multiplied from
    left to right in the array's own dtype (for either dtype the
    identity numpy starts from, times the first entry, is the first
    entry); 1 on the empty array. *)
Definition prod (xs : list num) : num :=
  match xs with
  | [] => n_one
  | x :: rest => foldl n_mul x rest
  end.

(** Python's [1.0 / n] for an int [n]: ZeroDivisionError at 0. *)
Definition py_inv (n : nat) : result num :=
  match n with
  | O => Raise ZeroDivisionError
  | S _ => Ok (n_div n_one (n_of_nat n))
  end.
End NumPy.
Arguments ndarray num : clear implicits.

(** The radial basis function: a name, or a callable (the docstring of
    [RBF] allows both). *)
Inductive kernel_t (num : Type) : Type :=
  | KernelName (s : string)
  | KernelCallable (phi : num → num).
Arguments KernelName {num} s.
Arguments KernelCallable {num} phi.

(** [kernel in names] for a list of string literals: a callable is equal
    to no string. *)
Definition kernel_in {num} (k : kernel_t num) (names : list string) : bool :=
  match k with
  | KernelName s => bool_decide (s ∈ names)
  | KernelCallable _ => false
  end.

(** [scipy.interpolate.RBFInterpolator]: the constructor, with its keyword
    arguments in the order [rbf.py] passes them (neighbors, smoothing,
    kernel, epsilon, degree), and the call of a built interpolator.  Both
    may raise; a built interpolator is not changed by a call. *)
Class Solver (num interp : Type) : Type := {
  RBFInterpolator :
    ndarray num → ndarray num → option Z → num → kernel_t num →
    option num → option Z → result interp;
  interp_call : interp → ndarray num → result (ndarray num);
}.

(** ** [class RBF(Approximation)] *)

Module RBF.
Section RBF.
Context {num interp : Type} `{Numeric num} `{Solver num interp}.

Record obj : Type := Obj {
  kernel : kernel_t num;
  smooth : num;
  neighbors : option Z;
  degree : option Z;
  epsilon : option num;
  interpolator : option interp;
  xi : option (ndarray num);
}.

Definition set_epsilon (e : option num) (self : obj) : obj :=
  Obj (kernel self) (smooth self) (neighbors self) (degree self)
      e (interpolator self) (xi self).

Definition set_interpolator (i : option interp) (self : obj) : obj :=
  Obj (kernel self) (smooth self) (neighbors self) (degree self)
      (epsilon self) i (xi self).

Definition set_xi (x : option (ndarray num)) (self : obj) : obj :=
  Obj (kernel self) (smooth self) (neighbors self) (degree self)
      (epsilon self) (interpolator self) x.

Definition __init__ (kernel : kernel_t num) (smooth : num)
    (neighbors : option Z) (epsilon : option num) (degree : option Z) : obj :=
  {| kernel := kernel; smooth := smooth; neighbors := neighbors;
     degree := degree; epsilon := epsilon;
     interpolator := None; xi := None |}.

(** [RBF()], every keyword argument at its default. *)
Definition default : obj :=
  __init__ (KernelName "thin_plate_spline") (n_of_nat 0) None None None.

(** Lines 69-73: the default epsilon, "the average distance between
    nodes" based on a bounding hypercube.  [N] is [xi.shape[-1]]. *)
Definition default_epsilon (xi : ndarray num) : result num :=
  let N := dim xi in
  match amax (rows xi) with
  | Raise e => Raise e
  | Ok ximax =>
    match amin (rows xi) with
    | Raise e => Raise e
    | Ok ximin =>
      let edges := vzip_with n_sub ximax ximin in
      let edges := nonzero_entries edges in
      let base := n_div (prod edges) (n_of_nat N) in
      match py_inv (length edges) with
      | Raise e => Raise e
      | Ok exponent => Ok (n_power base exponent)
      end
    end
  end.

(** [np.asarray] is the identity on an array, so [self.xi] is [points].
    The int [1] of line 75 and the float [1.0] are the same number
    [n_one].  The state is threaded statement by statement: an exception
    leaves the fields as assigned so far. *)
Definition fit (points values : ndarray num) : M obj unit :=
  modify (set_xi (Some points));;
  self ← get;
  match epsilon self with
  | None =>
      eps ← lift (default_epsilon points);
      modify (set_epsilon (Some eps));;
      if kernel_in (kernel self) ["thin_plate_spline"; "cubic"; "quintic"]
      then modify (set_epsilon (Some n_one))
      else mret tt
  | Some _ => mret tt
  end;;
  self ← get;
  i ← lift (RBFInterpolator points values (neighbors self) (smooth self)
              (kernel self) (epsilon self) (degree self));
  modify (set_interpolator (Some i)).

(** The callee [self.interpolator] is [None] before any successful fit,
    and calling [None] is a TypeError. *)
Definition predict (new_point : ndarray num) : M obj (ndarray num) :=
  self ← get;
  match interpolator self with
  | None => lift (Raise TypeError)
  | Some f => lift (interp_call f new_point)
  end.

(** The instances a client can hold: built by the constructor, then
    only acted on through [fit] and [predict]. *)
Inductive reachable : obj → Prop :=
  | reach_init k s n e d : reachable (__init__ k s n e d)
  | reach_fit self points values :
      reachable self → reachable (fit points values self).2
  | reach_predict self new_point :
      reachable self → reachable (predict new_point self).2.

(** [later self s]: [s] is [self] after any number of further [fit] and
    [predict] calls. *)
Inductive later (self : obj) : obj → Prop :=
  | later_now : later self self
  | later_fit s points values :
      later self s → later self (fit points values s).2
  | later_predict s new_point :
      later self s → later self (predict new_point s).2.
End RBF.
Arguments obj num interp : clear implicits.
End RBF.

(** ** The collaborators of [ReducedOrderModel]

    The database, the reduction and the approximation are supplied by the
    caller and used through the attributes below only.  A method acts on
    its receiver: it returns a value or raises, and leaves the receiver in
    a new state. *)

Module Database.
Class t (DB Arr : Type) : Type := {
  parameters : DB → Arr;
  snapshots : DB → Arr;
  (** [database.scaler_snapshots.inverse(x)]; the scaler is part of the
      database object. *)
  scaler_snapshots_inverse : Arr → M DB Arr;
}.
End Database.

Module Reduction.
Class t (Red Arr : Type) : Type := {
  reduce : Arr → M Red Arr;
  expand : Arr → M Red Arr;
}.
End Reduction.

Module Approximation.
Class t (App Arr : Type) : Type := {
  fit : Arr → Arr → M App unit;
  predict : Arr → M App Arr;
}.
End Approximation.

(** The [.T] attribute of an array. *)
Class Transpose (Arr : Type) : Type := T : Arr → Arr.

(** [RBF] is an [Approximation]. *)
Global Instance RBF_Approximation {num interp : Type}
    `{Numeric num} `{Solver num interp} :
    Approximation.t (RBF.obj num interp) (ndarray num) := {|
  Approximation.fit := RBF.fit;
  Approximation.predict := RBF.predict;
|}.

(** ** [class ReducedOrderModel] *)

(** Object identities: the orchestrator holds references, not copies. *)
Definition loc : Type := nat.

Module ReducedOrderModel.
Section ReducedOrderModel.
Context {Arr DB Red App : Type}.
Context `{Database.t DB Arr} `{Reduction.t Red Arr}
        `{Approximation.t App Arr} `{Transpose Arr}.

(** What an observer sees of one run: every call made on a collaborator,
    with its arguments and its outcome, and every line printed. *)
Inductive event : Type :=
  | CallReduce (l : loc) (X : Arr) (r : result Arr)
  | CallExpand (l : loc) (X : Arr) (r : result Arr)
  | CallFit (l : loc) (points values : Arr) (r : result unit)
  | CallPredict (l : loc) (mu : Arr) (r : result Arr)
  | CallInverse (l : loc) (X : Arr) (r : result Arr)
  | Printed (x : Arr).

(** The store of collaborator objects, one typed heap per interface,
    and the log of events so far. *)
Record world : Type := World {
  databases : loc → DB;
  reductions : loc → Red;
  approximations : loc → App;
  log : list event;
}.

Record obj : Type := Obj {
  database : loc;
  reduction : loc;
  approximation : loc;
}.

Definition __init__ (database reduction approximation : loc) : obj :=
  {| database := database; reduction := reduction;
     approximation := approximation |}.

Definition emit (e : event) : M world unit :=
  modify (λ w, World (databases w) (reductions w) (approximations w)
                     (log w ++ [e])).

(** Reading a data attribute of the database at [l]. *)
Definition attr (f : DB → Arr) (l : loc) : M world Arr :=
  λ w, (Ok (f (databases w l)), w).

(** Method calls: run the method on the receiver stored at [l], store
    the receiver back, log the call. *)
Definition call_reduce (l : loc) (X : Arr) : M world Arr := λ w,
  let '(r, o) := Reduction.reduce X (reductions w l) in
  (r, World (databases w) (<[l := o]> (reductions w)) (approximations w)
            (log w ++ [CallReduce l X r])).

Definition call_expand (l : loc) (X : Arr) : M world Arr := λ w,
  let '(r, o) := Reduction.expand X (reductions w l) in
  (r, World (databases w) (<[l := o]> (reductions w)) (approximations w)
            (log w ++ [CallExpand l X r])).

Definition call_fit (l : loc) (points values : Arr) : M world unit := λ w,
  let '(r, o) := Approximation.fit points values (approximations w l) in
  (r, World (databases w) (reductions w) (<[l := o]> (approximations w))
            (log w ++ [CallFit l points values r])).

Definition call_predict (l : loc) (mu : Arr) : M world Arr := λ w,
  let '(r, o) := Approximation.predict mu (approximations w l) in
  (r, World (databases w) (reductions w) (<[l := o]> (approximations w))
            (log w ++ [CallPredict l mu r])).

Definition call_inverse (l : loc) (X : Arr) : M world Arr := λ w,
  let '(r, o) := Database.scaler_snapshots_inverse X (databases w l) in
  (r, World (<[l := o]> (databases w)) (reductions w) (approximations w)
            (log w ++ [CallInverse l X r])).

Definition print (x : Arr) : M world unit := emit (Printed x).

(** Python evaluates the arguments of [approximation.fit] left to right:
    the parameters are read before [reduce] is called. *)
Definition fit (self : obj) : M world obj :=
  points ← attr Database.parameters (database self);
  snaps ← attr Database.snapshots (database self);
  values ← call_reduce (reduction self) (T snaps);
  call_fit (approximation self) points values;;
  mret self.

(** Line 19 evaluates [approximation.predict(mu)] and prints it; lines
    20-21 evaluate it again. *)
Definition predict (self : obj) (mu : Arr) : M world Arr :=
  latent ← call_predict (approximation self) mu;
  print latent;;
  latent ← call_predict (approximation self) mu;
  expanded ← call_expand (reduction self) latent;
  call_inverse (database self) expanded.

(** The composition in the words of the specification: latent, then
    expanded, then the scaler inverse. *)
Definition predict_spec (self : obj) (mu : Arr) : M world Arr :=
  latent ← call_predict (approximation self) mu;
  expanded ← call_expand (reduction self) latent;
  call_inverse (database self) expanded.

(** How many times [predict] was called on the approximation at [l]. *)
Definition is_predict_call (l : loc) (e : event) : bool :=
  match e with
  | CallPredict l' _ _ => bool_decide (l' = l)
  | _ => false
  end.

Definition predict_calls (l : loc) (evs : list event) : nat :=
  length (filter (λ e, Is_true (is_predict_call l e)) evs).
End ReducedOrderModel.
Arguments event Arr : clear implicits.
Arguments world Arr DB Red App : clear implicits.
End ReducedOrderModel.

(** ** Two arithmetics behind [Numeric] *)

(** IEEE binary64, numpy's float64.  [np.maximum] is
    [(a >= b || isnan(a)) ? a : b] and [np.minimum] is
    [(a <= b || isnan(a)) ? a : b]: both propagate NaN.  [np.power] is
    the C library's [pow], which is not part of the primitive floats and
    stays a parameter. *)
Definition np_maximum (a b : float) : float :=
  if PrimFloat.is_nan a then a else if PrimFloat.leb b a then a else b.

Definition np_minimum (a b : float) : float :=
  if PrimFloat.is_nan a then a else if PrimFloat.leb a b then a else b.

Definition float_of_nat (n : nat) : float :=
  PrimFloat.of_uint63 (Uint63.of_Z (Z.of_nat n)).

Definition float64 (pow : float → float → float) : Numeric float := {|
  n_one := 1%float;
  n_of_nat := float_of_nat;
  n_sub := PrimFloat.sub;
  n_mul := PrimFloat.mul;
  n_div := PrimFloat.div;
  n_max := np_maximum;
  n_min := np_minimum;
  n_nonzero := λ x, negb (PrimFloat.eqb x 0%float);
  n_power := pow;
|}.

(** numpy's scalars of the two dtypes that [np.asarray] gives a list of
    Python numbers: int64, where every operation wraps around, and
    float64. *)
Inductive scalar : Type :=
  | I64 (z : Z)
  | F64 (f : float).

(** Two's complement wrap-around to 64 bits. *)
Definition wrap64 (z : Z) : Z := ((z + 2 ^ 63) mod 2 ^ 64 - 2 ^ 63)%Z.

(** The double nearest to an integer (ties to even). *)
Definition float_of_Z (z : Z) : float :=
  SF2Prim (binary_normalize prec emax z 0 false).

Definition to_float (a : scalar) : float :=
  match a with
  | I64 z => float_of_Z z
  | F64 f => f
  end.

(** A binary operation: in int64 on two integers, otherwise in float64
    after promotion. *)
Definition promote (on_int : Z → Z → Z) (on_float : float → float → float)
    (a b : scalar) : scalar :=
  match a, b with
  | I64 x, I64 y => I64 (wrap64 (on_int x y))
  | _, _ => F64 (on_float (to_float a) (to_float b))
  end.

(** [/] is true division and [np.power] is called on floats here: both
    give a float64 whatever the operands. *)
Definition np_scalars (pow : float → float → float) : Numeric scalar := {|
  n_one := F64 1%float;
  n_of_nat := λ n, I64 (Z.of_nat n);
  n_sub := promote Z.sub PrimFloat.sub;
  n_mul := promote Z.mul PrimFloat.mul;
  n_div := λ a b, F64 (PrimFloat.div (to_float a) (to_float b));
  n_max := promote Z.max np_maximum;
  n_min := promote Z.min np_minimum;
  n_nonzero := λ a,
    match a with
    | I64 z => negb (z =? 0)%Z
    | F64 f => negb (PrimFloat.eqb f 0%float)
    end;
  n_power := λ a b, F64 (pow (to_float a) (to_float b));
|}.

(** ** Test doubles for the external collaborators *)

(** A solver that checks that points and values have as many rows, and
    whose interpolator answers every query with the fitted values. *)
Global Instance stub_solver {num : Type} :
    Solver num (ndarray num * ndarray num) := {|
  RBFInterpolator := λ points values _ _ _ _ _,
    if decide (length (rows points) = length (rows values))
    then Ok (points, values) else Raise ValueError;
  interp_call := λ i _, Ok i.2;
|}.

(** A stand-in for the C library's [pow], for the examples only.  It is
    defined on the two exponents they reach, where [pow(x, 1)] is [x]
    and [pow(x, 0.5)] is the square root, and is NaN elsewhere. *)
Definition pow_stub (b e : float) : float :=
  if PrimFloat.eqb e 1%float then b
  else if PrimFloat.eqb e 0.5%float then PrimFloat.sqrt b
  else PrimFloat.nan.

(** Doubles with that [pow]. *)
Global Instance f64 : Numeric float := float64 pow_stub.


Module Mock.
Section Mock.
Context {Arr : Type} `{EqDecision Arr}.

(** A database with a scaler whose inverse is [unscale]. *)
Record database : Type := Database {
  db_parameters : Arr;
  db_snapshots : Arr;
  db_unscale : Arr → Arr;
}.

Global Instance database_t : Database.t database Arr := {|
  Database.parameters := db_parameters;
  Database.snapshots := db_snapshots;
  Database.scaler_snapshots_inverse := λ X db, (Ok (db_unscale db X), db);
|}.

(** A reduction that learns in [reduce], as a POD learns its modes: it
    remembers the matrix it was given and cannot expand before. *)
Record reduction : Type := Reduction { seen : option Arr }.

Global Instance reduction_t : Reduction.t reduction Arr := {|
  Reduction.reduce := λ X _, (Ok X, Reduction (Some X));
  Reduction.expand := λ V r,
    match seen r with
    | None => (Raise (ExternalError "reduce was never called"), r)
    | Some _ => (Ok V, r)
    end;
|}.

(** An approximation that is exact on its training set and knows
    nothing else. *)
Record table : Type := Table { fitted : option (Arr * Arr) }.

Global Instance table_t : Approximation.t table Arr := {|
  Approximation.fit := λ points values _,
    (Ok tt, Table (Some (points, values)));
  Approximation.predict := λ mu a,
    match fitted a with
    | None => (Raise (ExternalError "not fitted"), a)
    | Some (points, values) =>
        if decide (mu = points) then (Ok values, a)
        else (Raise (ExternalError "unknown parameter"), a)
    end;
|}.

(** An approximation that answers its [n]-th query with [answers n]. *)
Record counter : Type := Counter { queries : nat; answers : nat → Arr }.

Global Instance counter_t : Approximation.t counter Arr := {|
  Approximation.fit := λ _ _ a, (Ok tt, a);
  Approximation.predict := λ _ a,
    (Ok (answers a (queries a)), Counter (S (queries a)) (answers a));
|}.
End Mock.
Arguments database Arr : clear implicits.
Arguments reduction Arr : clear implicits.
Arguments table Arr : clear implicits.
Arguments counter Arr : clear implicits.
End Mock.

(** Matrices of integers, as lists of rows, for the examples. *)
Fixpoint transpose_rows (m : list (list Z)) : list (list Z) :=
  match m with
  | [] => []
  | [r] => (λ x, [x]) <$> r
  | r :: rs => zip_with cons r (transpose_rows rs)
  end.

Global Instance matrix_T : Transpose (list (list Z)) := transpose_rows.

(** ** The default epsilon, dimension by dimension *)

Section Heuristic.
Context {num : Type} `{Numeric num}.

(** The [j]-th coordinates of a list of points. *)
Definition column {D} (a : list (vec num D)) (j : fin D) : list num :=
  (λ v, v !!! j) <$> a.

(** The range of the points [x :: xs] in every dimension: the largest
    coordinate minus the smallest. *)
Definition ranges {D} (x : vec num D) (xs : list (vec num D)) : vec num D :=
  fun_to_vec (λ j,
    n_sub (foldl n_max (x !!! j) (column xs j))
          (foldl n_min (x !!! j) (column xs j))).

(** The ranges that are not zero, in the order of the dimensions; none
    when there is no point. *)
Definition nonzero_ranges {D} (a : list (vec num D)) : list num :=
  match a with
  | [] => []
  | x :: xs => List.filter n_nonzero (vec_to_list (ranges x xs))
  end.

(** The product of a list of numbers, taken from left to right. *)
Definition product (nz : list num) : num :=
  match nz with
  | [] => n_one
  | r :: rs => List.fold_left n_mul rs r
  end.

(** (product of the nonzero ranges / D) ^ (1 / how many there are). *)
Definition heuristic (D : nat) (nz : list num) : num :=
  n_power (n_div (product nz) (n_of_nat D))
          (n_div n_one (n_of_nat (length nz))).
End Heuristic.

(** ** Example data *)

Section Examples.
Context {num : Type} `{Numeric num}.

(** [[[0,0],[1,0],[0,1],[1,1]]]: the corners of the unit square. *)
Definition unit_square : ndarray num :=
  Array2 2 [ [# n_of_nat 0; n_of_nat 0]; [# n_of_nat 1; n_of_nat 0];
             [# n_of_nat 0; n_of_nat 1]; [# n_of_nat 1; n_of_nat 1] ].

Definition four_values : ndarray num :=
  Array2 1 [ [# n_of_nat 0]; [# n_of_nat 1]; [# n_of_nat 1];
             [# n_of_nat 2] ].

(** [[[0,0],[3,0]]]: two points on the first axis. *)
Definition segment : ndarray num :=
  Array2 2 [ [# n_of_nat 0; n_of_nat 0]; [# n_of_nat 3; n_of_nat 0] ].

(** [[[1,2],[1,2]]]: the same point twice. *)
Definition twice_same : ndarray num :=
  Array2 2 [ [# n_of_nat 1; n_of_nat 2]; [# n_of_nat 1; n_of_nat 2] ].

Definition two_values : ndarray num :=
  Array2 1 [ [# n_of_nat 5]; [# n_of_nat 7] ].
End Examples.

(** RBF objects over doubles, on the stub solver. *)
Definition float_rbf : Type := RBF.obj float (ndarray float * ndarray float).

(** [RBF(kernel='cubic', epsilon=2)] *)
Definition cubic_eps2 : float_rbf :=
  RBF.__init__ (KernelName "cubic") 0%float None (Some 2%float) None.

(** [RBF(kernel='multiquadric')] *)
Definition multiquadric_f : float_rbf :=
  RBF.__init__ (KernelName "multiquadric") 0%float None None None.

(** [RBF()] over doubles. *)
Definition default_f : float_rbf := RBF.default.

(** ** Example worlds for the orchestrator *)

Definition matrix : Type := list (list Z).

(** Two parameters, two snapshots (the rows), and a scaler whose inverse
    multiplies by 10. *)
Definition db0 : Mock.database matrix :=
  Mock.Database [[0]; [1]]%Z [[1; 2]; [3; 4]]%Z (map (map (Z.mul 10))).

(** [ReducedOrderModel(db, reduction, approximation)], the collaborators
    being the objects at 0, 1 and 2. *)
Definition rom0 : ReducedOrderModel.obj := ReducedOrderModel.__init__ 0 1 2.

(** Nothing fitted yet, the approximation being a table. *)
Definition table_world :
    ReducedOrderModel.world matrix (Mock.database matrix)
      (Mock.reduction matrix) (Mock.table matrix) :=
  ReducedOrderModel.World (λ _, db0) (λ _, Mock.Reduction None)
    (λ _, Mock.Table None) [].

(** A reduction that has reduced, and an approximation that answers its
    n-th query with [[n]]. *)
Definition counter_world :
    ReducedOrderModel.world matrix (Mock.database matrix)
      (Mock.reduction matrix) (Mock.counter matrix) :=
  ReducedOrderModel.World (λ _, db0) (λ _, Mock.Reduction (Some []))
    (λ _, Mock.Counter 0 (λ n, [[Z.of_nat n]])) [].

(** An orchestrator over a freshly built [RBF()]. *)
Definition unfit_world :
    ReducedOrderModel.world (ndarray float) (Mock.database (ndarray float))
      (Mock.reduction (ndarray float)) float_rbf :=
  ReducedOrderModel.World (λ _, Mock.Database unit_square four_values (λ x, x))
    (λ _, Mock.Reduction None) (λ _, default_f) [].

(** The number of [predict] calls that one [predict] of the orchestrator
    makes on the counting approximation. *)
Definition predict_calls_in_example : nat :=
  ReducedOrderModel.predict_calls (ReducedOrderModel.approximation rom0)
    (ReducedOrderModel.log
       (ReducedOrderModel.predict rom0 [[7]]%Z counter_world).2).

(** ** Further example data *)

(** A point set of shape [(0, 2)]. *)
Definition no_points : ndarray float := Array2 2 [].

(** [[[1,2]]]: one point. *)
Definition one_point : ndarray float := Array2 2 [ [# 1%float; 2%float] ].

Definition one_value : ndarray float := Array2 1 [ [# 5%float] ].

(** [RBF()] after [fit] on the unit square. *)
Definition fitted_f : float_rbf :=
  (RBF.fit unit_square four_values default_f).2.

(** ** Observing failures, and an orchestrator over [RBF] *)


(** [a.T] for a two-dimensional array: entry [(j, i)] of the result is
    entry [(i, j)] of [a]. *)
Definition transpose {num} (a : ndarray num) : ndarray num :=
  Array2 (length (rows a))
    (vec_to_list (fun_to_vec (λ j : fin (dim a),
       fun_to_vec (λ i : fin (length (rows a)),
         (list_to_vec (rows a) !!! i) !!! j)))).

Global Instance ndarray_T {num} : Transpose (ndarray num) := transpose.

(** A reduction that keeps every coordinate and, like a POD, hands its
    coefficients back one row per snapshot: [reduce] transposes and
    remembers, [expand] transposes back. *)
Record pod (Arr : Type) : Type := Pod { pod_seen : option Arr }.
Arguments Pod {Arr} pod_seen.
Arguments pod_seen {Arr} p.

Global Instance pod_t {Arr} `{Transpose Arr} : Reduction.t (pod Arr) Arr := {|
  Reduction.reduce := λ X _, (Ok (T X), Pod (Some X));
  Reduction.expand := λ V r,
    match pod_seen r with
    | None => (Raise (ExternalError "reduce was never called"), r)
    | Some _ => (Ok (T V), r)
    end;
|}.

(** Four parameters on the unit square with one-dimensional snapshots,
    that reduction, and a fresh [RBF()]. *)
Definition rbf_world :
    ReducedOrderModel.world (ndarray float) (Mock.database (ndarray float))
      (pod (ndarray float)) float_rbf :=
  ReducedOrderModel.World
    (λ _, Mock.Database unit_square four_values (λ x, x))
    (λ _, Pod None) (λ _, default_f) [].


(** ** Integer points *)

(** RBF objects over numpy's scalars, on the stub solver. *)
Definition np_rbf : Type := RBF.obj scalar (ndarray scalar * ndarray scalar).

(** [RBF(kernel='multiquadric')] *)
Definition multiquadric_np : np_rbf :=
  RBF.__init__ (KernelName "multiquadric") (I64 0) None None None.





(** ** [ReducedOrderModel.fit] over arbitrary collaborators

    Nothing is assumed here of the database, the reduction and the
    approximation: they are Python values, every attribute read and every
    call is an arbitrary action on the whole program state, and may
    change any object it can reach, its arguments included. *)

Module DuckTyped.
Section DuckTyped.
Context {S V : Type}.

(** [getattr v name] is [v.name]; [call f args] is [f] called on [args]. *)
Class Runtime : Type := {
  getattr : V → string → M S V;
  call : V → list V → M S V;
}.
Context `{Runtime}.

Record obj : Type := Obj {
  database : V;
  reduction : V;
  approximation : V;
}.

(** Lines 12-16, in Python's order of evaluation: the callee
    [self.approximation.fit], then its arguments from left to right,
    then the call. *)
Definition fit (self : obj) : M S obj :=
  bound_fit ← getattr (approximation self) "fit";
  points ← getattr (database self) "parameters";
  bound_reduce ← getattr (reduction self) "reduce";
  snaps ← getattr (database self) "snapshots";
  view ← getattr snaps "T";
  values ← call bound_reduce [view];
  _ ← call bound_fit [points; values];
  mret self.
End DuckTyped.
Arguments Runtime S V : clear implicits.
Arguments obj V : clear implicits.
End DuckTyped.

(** A small program state: a database with its snapshots and parameters,
    a reduction that centres the snapshots on the first one, in place,
    through the view it is given, and remembers that snapshot; and an
    approximation that stores what it is fitted on. *)
Record centring_state : Type := CentringState {
  cs_snapshots : matrix;
  cs_parameters : matrix;
  cs_centre : option (list Z);
  cs_fitted : option (matrix * matrix);
}.

Inductive centring_value : Type :=
  | TheDatabase
  | TheReduction
  | TheApproximation
  | SnapshotsArray            (* the array [database.snapshots] *)
  | SnapshotsView             (* its transposed view: the same memory *)
  | BoundReduce
  | BoundFit
  | Matrix (m : matrix)       (* any other array *)
  | NoneValue.

Definition centring_getattr (v : centring_value) (name : string) :
    M centring_state centring_value := λ s,
  match v with
  | TheDatabase =>
      if decide (name = "parameters") then (Ok (Matrix (cs_parameters s)), s)
      else if decide (name = "snapshots") then (Ok SnapshotsArray, s)
      else (Raise (ExternalError "AttributeError"), s)
  | SnapshotsArray =>
      if decide (name = "T") then (Ok SnapshotsView, s)
      else (Raise (ExternalError "AttributeError"), s)
  | TheReduction =>
      if decide (name = "reduce") then (Ok BoundReduce, s)
      else (Raise (ExternalError "AttributeError"), s)
  | TheApproximation =>
      if decide (name = "fit") then (Ok BoundFit, s)
      else (Raise (ExternalError "AttributeError"), s)
  | _ => (Raise (ExternalError "AttributeError"), s)
  end.

(** [X -= first snapshot] on the rows of the snapshot array. *)
Definition centre (snaps : matrix) : matrix :=
  match snaps with
  | [] => []
  | first :: _ => (λ row, zip_with Z.sub row first) <$> snaps
  end.

Definition centring_call (f : centring_value) (args : list centring_value) :
    M centring_state centring_value := λ s,
  match f, args with
  | BoundReduce, [SnapshotsView] =>
      let centred := centre (cs_snapshots s) in
      (Ok (Matrix (transpose_rows centred)),
       CentringState centred (cs_parameters s) (head (cs_snapshots s))
         (cs_fitted s))
  | BoundFit, [Matrix points; Matrix values] =>
      (Ok NoneValue,
       CentringState (cs_snapshots s) (cs_parameters s) (cs_centre s)
         (Some (points, values)))
  | _, _ => (Raise TypeError, s)
  end.

Global Instance centring_runtime :
    DuckTyped.Runtime centring_state centring_value := {|
  DuckTyped.getattr := centring_getattr;
  DuckTyped.call := centring_call;
|}.



(** * Properties *)

(** ** The default epsilon computed by [RBF.fit] *)

Section HeuristicFacts.
Context {num : Type} `{Numeric num}.

Lemma foldl_vzip_with_lookup {D} (f : num → num → num)
    (xs : list (vec num D)) (x : vec num D) (j : fin D) :
  foldl (vzip_with f) x xs !!! j = foldl f (x !!! j) (column xs j).
Proof.
  revert x. induction xs as [|y ys IH]; intros x; simpl; [done|].
  by rewrite IH, vlookup_zip_with.
Qed.

Lemma edges_ranges {D} (x : vec num D) (xs : list (vec num D)) :
  vzip_with n_sub (foldl (vzip_with n_max) x xs)
                  (foldl (vzip_with n_min) x xs) = ranges x xs.
Proof.
  apply vec_eq. intros j. unfold ranges.
  by rewrite vlookup_zip_with, lookup_fun_to_vec,
             !foldl_vzip_with_lookup.
Qed.

(** The two selections of the nonzero entries agree. *)
Lemma nonzero_entries_filter {D} (v : vec num D) :
  nonzero_entries v = List.filter n_nonzero (vec_to_list v).
Proof.
  unfold nonzero_entries. induction (vec_to_list v) as [|a l IH]; [done|].
  rewrite filter_cons. simpl. rewrite IH.
  destruct (n_nonzero a); case_decide; simpl in *; done.
Qed.

(** [np.prod] is the product from left to right. *)
Lemma prod_product (xs : list num) : prod xs = product xs.
Proof.
  destruct xs as [|x rest]; [done|]. simpl. revert x.
  induction rest as [|y rest IH]; intros x; simpl; [done|]. apply IH.
Qed.
End HeuristicFacts.

Section RBFFacts.
Context {num interp : Type} `{Numeric num} `{Solver num interp}.
Implicit Types (self : RBF.obj num interp) (points values : ndarray num).

(** The three outcomes of lines 69-73. *)
Lemma default_epsilon_no_point points :
  rows points = [] → RBF.default_epsilon points = Raise ValueError.
Proof. intros E. unfold RBF.default_epsilon. by rewrite E. Qed.

Lemma default_epsilon_rows points x xs :
  rows points = x :: xs →
  RBF.default_epsilon points =
    match py_inv (length (nonzero_ranges (x :: xs))) with
    | Raise e => Raise e
    | Ok exponent =>
        Ok (n_power (n_div (product (nonzero_ranges (x :: xs)))
                           (n_of_nat (dim points))) exponent)
    end.
Proof.
  intros E. unfold RBF.default_epsilon. rewrite E. simpl.
  by rewrite edges_ranges, nonzero_entries_filter, prod_product.
Qed.

Lemma default_epsilon_degenerate points :
  rows points ≠ [] → nonzero_ranges (rows points) = [] →
  RBF.default_epsilon points = Raise ZeroDivisionError.
Proof.
  destruct (rows points) as [|x xs] eqn:E; [done|]. intros _ Hnz.
  rewrite (default_epsilon_rows _ _ _ E), Hnz. done.
Qed.

Lemma default_epsilon_heuristic points :
  nonzero_ranges (rows points) ≠ [] →
  RBF.default_epsilon points =
    Ok (heuristic (dim points) (nonzero_ranges (rows points))).
Proof.
  destruct (rows points) as [|x xs] eqn:E; [done|]. intros Hnz.
  rewrite (default_epsilon_rows _ _ _ E). unfold heuristic.
  by destruct (nonzero_ranges (x :: xs)).
Qed.

(** [fit] when epsilon is unset on entry. *)
Lemma fit_unset points values self :
  RBF.epsilon self = None →
  RBF.fit points values self =
    match RBF.default_epsilon points with
    | Raise e => (Raise e, RBF.set_xi (Some points) self)
    | Ok eps =>
        let eps' :=
          if kernel_in (RBF.kernel self)
               ["thin_plate_spline"; "cubic"; "quintic"]
          then n_one else eps in
        let self' :=
          RBF.set_epsilon (Some eps') (RBF.set_xi (Some points) self) in
        match RBFInterpolator points values (RBF.neighbors self)
                (RBF.smooth self) (RBF.kernel self) (Some eps')
                (RBF.degree self) with
        | Raise e => (Raise e, self')
        | Ok i => (Ok tt, RBF.set_interpolator (Some i) self')
        end
    end.
Proof.
  intros E. unfold RBF.fit, mbind, M_bind, modify, get, lift, mret, M_ret.
  simpl. rewrite E.
  destruct (RBF.default_epsilon points) as [eps|e]; [|done]. simpl.
  destruct (kernel_in _ _); simpl;
    by destruct (RBFInterpolator _ _ _ _ _ _ _).
Qed.

(** [fit] when epsilon is set on entry: lines 67-75 are skipped. *)
Lemma fit_set points values self eps :
  RBF.epsilon self = Some eps →
  RBF.fit points values self =
    match RBFInterpolator points values (RBF.neighbors self)
            (RBF.smooth self) (RBF.kernel self) (Some eps)
            (RBF.degree self) with
    | Raise e => (Raise e, RBF.set_xi (Some points) self)
    | Ok i =>
        (Ok tt, RBF.set_interpolator (Some i)
                  (RBF.set_xi (Some points) self))
    end.
Proof.
  intros E. unfold RBF.fit, mbind, M_bind, modify, get, lift, mret, M_ret.
  simpl. rewrite E. simpl. rewrite E.
  by destruct (RBFInterpolator _ _ _ _ _ _ _).
Qed.

(** The epsilon field after [fit], when it was unset on entry and the
    default could be computed: the solver's outcome does not matter. *)
Lemma fit_unset_epsilon points values self :
  RBF.epsilon self = None →
  nonzero_ranges (rows points) ≠ [] →
  RBF.epsilon (RBF.fit points values self).2 =
    Some (if kernel_in (RBF.kernel self)
               ["thin_plate_spline"; "cubic"; "quintic"]
          then n_one
          else heuristic (dim points) (nonzero_ranges (rows points))).
Proof.
  intros E Hnz.
  rewrite (fit_unset _ _ _ E), (default_epsilon_heuristic points Hnz).
  simpl. by destruct (RBFInterpolator _ _ _ _ _ _ _).
Qed.

Lemma fit_set_epsilon points values self eps :
  RBF.epsilon self = Some eps →
  RBF.epsilon (RBF.fit points values self).2 = Some eps.
Proof.
  intros E. rewrite (fit_set _ _ _ _ E).
  by destruct (RBFInterpolator _ _ _ _ _ _ _).
Qed.

Lemma fit_ok_epsilon points values self self' :
  RBF.fit points values self = (Ok tt, self') →
  is_Some (RBF.epsilon self').
Proof.
  destruct (RBF.epsilon self) as [eps|] eqn:E.
  - rewrite (fit_set _ _ _ _ E).
    destruct (RBFInterpolator _ _ _ _ _ _ _); [|done].
    intros [= <-]. simpl. rewrite E. eauto.
  - rewrite (fit_unset _ _ _ E).
    destruct (RBF.default_epsilon points); [|done]. simpl.
    destruct (RBFInterpolator _ _ _ _ _ _ _); [|done].
    intros [= <-]. simpl. eauto.
Qed.

Lemma predict_state new_point self :
  (RBF.predict new_point self).2 = self.
Proof.
  unfold RBF.predict, mbind, M_bind, get, lift. simpl.
  by destruct (RBF.interpolator self).
Qed.

(** Once set, epsilon is never assigned again. *)
Lemma later_epsilon self s eps :
  RBF.epsilon self = Some eps → RBF.later self s →
  RBF.epsilon s = Some eps.
Proof.
  intros E. induction 1 as [|s points values _ IH|s new_point _ IH].
  - done.
  - by apply fit_set_epsilon.
  - by rewrite predict_state.
Qed.

(** An interpolator is only ever stored next to an epsilon. *)
Lemma fit_interpolator_epsilon points values self :
  (is_Some (RBF.interpolator self) → is_Some (RBF.epsilon self)) →
  let self' := (RBF.fit points values self).2 in
  is_Some (RBF.interpolator self') → is_Some (RBF.epsilon self').
Proof.
  intros Inv. destruct (RBF.epsilon self) as [eps|] eqn:E.
  - rewrite (fit_set _ _ _ _ E).
    destruct (RBFInterpolator _ _ _ _ _ _ _); simpl; rewrite E; eauto.
  - rewrite (fit_unset _ _ _ E).
    destruct (RBF.default_epsilon points); simpl.
    + destruct (RBFInterpolator _ _ _ _ _ _ _); simpl; eauto.
    + rewrite E. done.
Qed.

Lemma reachable_interpolator_epsilon self :
  RBF.reachable self →
  is_Some (RBF.interpolator self) → is_Some (RBF.epsilon self).
Proof.
  induction 1 as [k s n e d|self points values _ IH|self new_point _ IH].
  - simpl. by intros [? ?].
  - by apply fit_interpolator_epsilon.
  - by rewrite predict_state.
Qed.
End RBFFacts.

Section RBFClaims.
Context {num interp : Type} `{Numeric num} `{Solver num interp}.
Implicit Types (self : RBF.obj num interp) (points values : ndarray num).

Lemma nonzero_entries_nil {D} (v : vec num D) :
  (∀ j, n_nonzero (v !!! j) = false) → nonzero_entries v = [].
Proof.
  intros Hz. unfold nonzero_entries.
  induction v as [|x n v IH]; [done|].
  simpl. rewrite filter_cons.
  pose proof (Hz 0%fin) as H0z. simpl in H0z. rewrite H0z.
  destruct (decide _) as [[]|_].
  apply IH. intros j. apply (Hz (FS j)).
Qed.


(** C4, amended: for a kernel among thin_plate_spline, cubic and quintic
    and epsilon unset on entry, epsilon is 1 after [fit] whenever the
    default computation completes, whatever the spread of the points
    and whatever the solver does; an epsilon set on entry is kept. *)
Theorem C4_forced_to_one points values self :
  kernel_in (RBF.kernel self)
    ["thin_plate_spline"; "cubic"; "quintic"] = true →
  (RBF.epsilon self = None →
   nonzero_ranges (rows points) ≠ [] →
   RBF.epsilon (RBF.fit points values self).2 = Some n_one) ∧
  (∀ eps, RBF.epsilon self = Some eps →
   RBF.epsilon (RBF.fit points values self).2 = Some eps).
Proof.
  intros Hk. split.
  - intros E Hnz.
    by rewrite (fit_unset_epsilon _ _ _ E Hnz), Hk.
  - intros eps E. by apply fit_set_epsilon.
Qed.

(** C8: a successful [fit] leaves epsilon set; a [fit] that finds
    epsilon set skips the default computation, so that its outcome is
    the solver's alone and epsilon keeps its value whatever the kernel
    and the points; hence every later [fit] on the same instance, on any
    point set, reuses the epsilon of the first successful one. *)
Theorem C8_epsilon_reused points values self :
  (∀ self', RBF.fit points values self = (Ok tt, self') →
     is_Some (RBF.epsilon self')) ∧
  (∀ eps, RBF.epsilon self = Some eps →
     RBF.epsilon (RBF.fit points values self).2 = Some eps ∧
     (RBF.fit points values self).1 =
       match RBFInterpolator points values (RBF.neighbors self)
               (RBF.smooth self) (RBF.kernel self) (Some eps)
               (RBF.degree self) with
       | Ok _ => Ok tt
       | Raise e => Raise e
       end) ∧
  (∀ self1 self2 points2 values2,
     RBF.fit points values self = (Ok tt, self1) →
     RBF.later self1 self2 →
     RBF.epsilon (RBF.fit points2 values2 self2).2 = RBF.epsilon self1).
Proof.
  split; [|split].
  - intros self'. apply fit_ok_epsilon.
  - intros eps E. split; [by apply fit_set_epsilon|].
    rewrite (fit_set _ _ _ _ E).
    by destruct (RBFInterpolator _ _ _ _ _ _ _).
  - intros self1 self2 points2 values2 Hfit Hlater.
    destruct (fit_ok_epsilon _ _ _ _ Hfit) as [eps E].
    rewrite E. apply fit_set_epsilon. by apply (later_epsilon self1).
Qed.

(** C9: on an instance built by the constructor and used through its
    methods, with epsilon unset, a [fit] on points whose every dimension
    has zero range finds no nonzero edge, divides 1.0 by zero and raises
    ZeroDivisionError before the solver is called: epsilon and the
    interpolator stay unset, and the points are already stored. *)
Theorem C9_zero_range_raises points values self x xs :
  RBF.reachable self →
  RBF.epsilon self = None →
  rows points = x :: xs →
  (∀ j, n_nonzero (ranges x xs !!! j) = false) →
  nonzero_entries (ranges x xs) = [] ∧
  RBF.fit points values self =
    (Raise ZeroDivisionError, RBF.set_xi (Some points) self) ∧
  let self' := (RBF.fit points values self).2 in
  RBF.epsilon self' = None ∧ RBF.interpolator self' = None ∧
  RBF.xi self' = Some points.
Proof.
  intros Hreach E Hrows Hzero.
  pose proof (nonzero_entries_nil _ Hzero) as Hnil.
  assert (RBF.fit points values self =
            (Raise ZeroDivisionError, RBF.set_xi (Some points) self))
    as Hfit.
  { rewrite (fit_unset _ _ _ E), default_epsilon_degenerate; [done| |].
    - by rewrite Hrows.
    - rewrite Hrows. simpl. by rewrite <- nonzero_entries_filter. }
  split; [done|]. split; [done|]. rewrite Hfit. simpl.
  split; [done|]. split; [|done].
  destruct (RBF.interpolator self) as [i|] eqn:Ei; [|done].
  destruct (reachable_interpolator_epsilon self Hreach) as [eps Heps].
  - rewrite Ei. eauto.
  - congruence.
Qed.
End RBFClaims.

(** In IEEE doubles the operands of [np.power] are exactly 0.5 and 0.5,
    whatever the C library's [pow] then returns. *)
Example unit_square_float64 (pow : float → float → float) :
  RBF.epsilon
    (@RBF.fit float _ (float64 pow) stub_solver
       (@unit_square float (float64 pow)) (@four_values float (float64 pow))
       multiquadric_f).2
  = Some (pow 0.5%float 0.5%float).
Proof. vm_compute. reflexivity. Qed.

#[local] Set Warnings "-inexact-float".

(** For the integer array [[0,0],[1,0],[0,1],[1,1]] as well, the operands
    of [np.power] are exactly 0.5 and 0.5. *)
Example unit_square_int64 (pow : float → float → float) :
  RBF.epsilon
    (@RBF.fit scalar _ (np_scalars pow) stub_solver
       (@unit_square scalar (np_scalars pow))
       (@four_values scalar (np_scalars pow)) multiquadric_np).2
  = Some (F64 (pow 0.5%float 0.5%float)).
Proof. vm_compute. reflexivity. Qed.



(** ** Doubles: the remaining examples *)

(** [RBF(kernel='cubic', epsilon=2)] still has epsilon 2 after a
    successful [fit]: the kernel alone does not force epsilon to 1. *)
Lemma C4_cubic_keeps_epsilon :
  kernel_in (RBF.kernel cubic_eps2)
    ["thin_plate_spline"; "cubic"; "quintic"] = true ∧
  (RBF.fit unit_square four_values cubic_eps2).1 = Ok tt ∧
  RBF.epsilon (RBF.fit unit_square four_values cubic_eps2).2
    ≠ Some 1%float.
Proof.
  split; [by vm_compute|]. split; [by vm_compute|]. vm_compute. intros E.
  apply (f_equal (λ o, match o with
                       | Some x => PrimFloat.eqb x 1%float
                       | None => false
                       end)) in E.
  vm_compute in E. discriminate.
Qed.

Lemma C4_default_kernel :
  RBF.epsilon (RBF.fit unit_square four_values default_f).2 = Some 1%float ∧
  RBF.epsilon (RBF.fit unit_square four_values cubic_eps2).2 = Some 2%float.
Proof.
  split.
  - refine (proj1 (C4_forced_to_one unit_square four_values default_f _)
                    eq_refl _); by vm_compute.
  - refine (proj2 (C4_forced_to_one unit_square four_values cubic_eps2 _)
                    _ eq_refl); by vm_compute.
Defined.

(** A second fit, on the segment, keeps the epsilon of the first, on the
    unit square. *)
Lemma C8_second_fit :
  RBF.epsilon
    (RBF.fit segment two_values
       (RBF.fit unit_square four_values multiquadric_f).2).2
  = RBF.epsilon (RBF.fit unit_square four_values multiquadric_f).2.
Proof.
  refine (proj2 (proj2 (C8_epsilon_reused unit_square four_values
                          multiquadric_f)) _ _ segment two_values _
            (RBF.later_now _)).
  by vm_compute.
Defined.

Lemma C9_twice_same :
  RBF.fit twice_same two_values default_f
    = (Raise ZeroDivisionError, RBF.set_xi (Some twice_same) default_f).
Proof.
  refine (proj1 (proj2 (C9_zero_range_raises twice_same two_values default_f
                          _ _ _ eq_refl eq_refl _))).
  - apply RBF.reach_init.
  - intros j. inv_fin j; [by vm_compute|].
    intros j. inv_fin j; [by vm_compute|].
    intros j. inv_fin j.
Defined.

(** ** The orchestrator *)

Section ROMClaims.
Context {Arr DB Red App : Type}.
Context `{Database.t DB Arr} `{Reduction.t Red Arr}
        `{Approximation.t App Arr} `{Transpose Arr}.
Implicit Types (w : ReducedOrderModel.world Arr DB Red App).
Implicit Types (self : ReducedOrderModel.obj) (mu out : Arr).

Import ReducedOrderModel.

Ltac run :=
  unfold ReducedOrderModel.predict, ReducedOrderModel.fit,
    ReducedOrderModel.predict_spec, call_predict, call_expand, call_inverse,
    call_reduce, call_fit, attr, print, emit, mbind, M_bind, mret, M_ret,
    modify;
  simpl.

(** The successful runs of [fit]. *)
Lemma fit_returns w self r w' :
  ReducedOrderModel.fit self w = (Ok r, w') ↔
  ∃ values r' a',
    Reduction.reduce
      (T (Database.snapshots (databases w (database self))))
      (reductions w (reduction self)) = (Ok values, r') ∧
    Approximation.fit
      (Database.parameters (databases w (database self))) values
      (approximations w (approximation self)) = (Ok tt, a') ∧
    r = self ∧
    w' = World (databases w)
               (<[reduction self := r']> (reductions w))
               (<[approximation self := a']> (approximations w))
               (log w ++
                  [CallReduce (reduction self)
                     (T (Database.snapshots (databases w (database self))))
                     (Ok values);
                   CallFit (approximation self)
                     (Database.parameters (databases w (database self)))
                     values (Ok tt)]).
Proof.
  run.
  destruct (Reduction.reduce _ _) as [[values|e1] r'] eqn:E1; simpl;
    [|split; [done|intros (?&?&?&[=]&_)]].
  destruct (Approximation.fit _ values _) as [[[]|e2] a'] eqn:E2; simpl.
  - rewrite <- !(assoc_L (++)). simpl. split.
    + intros [= <- <-]. by exists values, r', a'.
    + intros (?&?&?&[= <- <-]&E&->&->).
      rewrite E2 in E. by injection E as <-.
  - split; [done|]. intros (?&?&?&[= <- <-]&E&_). congruence.
Qed.

(** C1: once the diagnostic is printed, [predict] is the composition of
    the specification: the approximation's [predict], then the
    reduction's [expand], then the scaler's [inverse].  It returns
    exactly when the approximation's [predict] (run for the diagnostic,
    then again), [expand] on that latent value and [inverse] on the
    expanded value all return, and it returns what [inverse] returned;
    the calls are made, and logged, in that order. *)
Theorem C1_predict_composition w self mu out w' :
  ReducedOrderModel.predict self mu w =
    (latent ← call_predict (approximation self) mu;
     print latent;;
     predict_spec self mu) w ∧
  (ReducedOrderModel.predict self mu w = (Ok out, w') ↔
  ∃ l1 a1 latent a2 expanded r' d',
    Approximation.predict mu (approximations w (approximation self))
      = (Ok l1, a1) ∧
    Approximation.predict mu a1 = (Ok latent, a2) ∧
    Reduction.expand latent (reductions w (reduction self))
      = (Ok expanded, r') ∧
    Database.scaler_snapshots_inverse expanded
      (databases w (database self)) = (Ok out, d') ∧
    w' = World (<[database self := d']> (databases w))
               (<[reduction self := r']> (reductions w))
               (<[approximation self := a2]>
                  (<[approximation self := a1]> (approximations w)))
               (log w ++
                  [CallPredict (approximation self) mu (Ok l1);
                   Printed l1;
                   CallPredict (approximation self) mu (Ok latent);
                   CallExpand (reduction self) latent (Ok expanded);
                   CallInverse (database self) expanded (Ok out)])).
Proof.
  split; [reflexivity|]. run.
  destruct (Approximation.predict mu _) as [[l1|e1] a1] eqn:E1; simpl;
    [|split; [done|intros (?&?&?&?&?&?&?&[=]&_)]].
  rewrite fn_lookup_insert.
  destruct (Approximation.predict mu a1) as [[latent|e2] a2] eqn:E2; simpl;
    [|split; [done|intros (?&?&?&?&?&?&?&[= <- <-]&E&_); congruence]].
  destruct (Reduction.expand latent _) as [[expanded|e3] r'] eqn:E3; simpl;
    [|split; [done|intros (?&?&?&?&?&?&?&[= <- <-]&E&E'&_); congruence]].
  destruct (Database.scaler_snapshots_inverse expanded _)
    as [[out'|e4] d'] eqn:E4; simpl.
  - rewrite <- !(assoc_L (++)). simpl. split.
    + intros [= <- <-]. by exists l1, a1, latent, a2, expanded, r', d'.
    + intros (?&?&?&?&?&?&?&[= <- <-]&E&E'&E''&->).
      rewrite E2 in E. injection E as <- <-.
      rewrite E3 in E'. injection E' as <- <-.
      rewrite E4 in E''. by injection E'' as <- <-.
  - split; [done|].
    intros (?&?&?&?&?&?&?&[= <- <-]&E&E'&E''&_).
    rewrite E2 in E. injection E as <- <-.
    rewrite E3 in E'. injection E' as <- <-. congruence.
Qed.
(** C2: [fit] always calls the reduction's [reduce] first, on the
    transposed snapshots; it returns exactly when [reduce] returns some
    values and the approximation's [fit], called with the database's
    parameters as points and those values, returns; what it returns is
    the orchestrator itself. *)
Theorem C2_fit_delegation w self :
  let points := Database.parameters (databases w (database self)) in
  let snaps := Database.snapshots (databases w (database self)) in
  (∃ reduced rest,
     log (ReducedOrderModel.fit self w).2 =
       log w ++ CallReduce (reduction self) (T snaps) reduced :: rest) ∧
  (∀ r w',
     ReducedOrderModel.fit self w = (Ok r, w') ↔
     ∃ values r' a',
       Reduction.reduce (T snaps) (reductions w (reduction self))
         = (Ok values, r') ∧
       Approximation.fit points values
         (approximations w (approximation self)) = (Ok tt, a') ∧
       r = self ∧
       w' = World (databases w)
                  (<[reduction self := r']> (reductions w))
                  (<[approximation self := a']> (approximations w))
                  (log w ++
                     [CallReduce (reduction self) (T snaps) (Ok values);
                      CallFit (approximation self) points values (Ok tt)])).
Proof.
  intros points snaps. split; [|apply fit_returns].
  subst points snaps. run.
  destruct (Reduction.reduce _ _) as [[values|e1] r']; simpl; [|by eauto].
  destruct (Approximation.fit _ values _) as [[[]|e2] a']; simpl;
    rewrite <- !(assoc_L (++)); simpl; by eauto.
Qed.


(** C10, amended: when the approximation's [predict] returns on [mu],
    one call of the orchestrator's [predict] invokes it exactly twice,
    both times on [mu]; the first result is printed and used nowhere
    else, the second is what [expand] receives, and the value returned
    is the scaler's [inverse] of that expansion. *)
Theorem C10_predict_twice w self mu l1 a1 :
  Approximation.predict mu (approximations w (approximation self))
    = (Ok l1, a1) →
  let second := Approximation.predict mu a1 in
  let outcome := ReducedOrderModel.predict self mu w in
  ∃ rest,
    log outcome.2 =
      log w ++ [CallPredict (approximation self) mu (Ok l1); Printed l1;
                CallPredict (approximation self) mu second.1] ++ rest ∧
    predict_calls (approximation self)
      ([CallPredict (approximation self) mu (Ok l1); Printed l1;
        CallPredict (approximation self) mu second.1] ++ rest) = 2 ∧
    match second.1 with
    | Raise e => rest = [] ∧ outcome.1 = Raise e
    | Ok latent =>
        let expansion :=
          Reduction.expand latent (reductions w (reduction self)) in
        match expansion.1 with
        | Raise e =>
            rest = [CallExpand (reduction self) latent (Raise e)] ∧
            outcome.1 = Raise e
        | Ok expanded =>
            let inverted :=
              Database.scaler_snapshots_inverse expanded
                (databases w (database self)) in
            rest = [CallExpand (reduction self) latent (Ok expanded);
                    CallInverse (database self) expanded inverted.1] ∧
            outcome.1 = inverted.1
        end
    end.
Proof.
  intros E1 second run0. subst second run0. run. rewrite E1. simpl.
  rewrite fn_lookup_insert.
  unfold predict_calls.
  destruct (Approximation.predict mu a1) as [[latent|e2] a2]; simpl.
  - destruct (Reduction.expand latent _) as [[expanded|e3] r']; simpl.
    + destruct (Database.scaler_snapshots_inverse expanded _)
        as [inverted d']; simpl.
      eexists. rewrite <- !(assoc_L (++)). simpl.
      split; [done|]. split; [|done].
      rewrite !filter_cons, filter_nil. simpl.
      by rewrite !bool_decide_eq_true_2.
    + eexists. rewrite <- !(assoc_L (++)). simpl.
      split; [done|]. split; [|done].
      rewrite !filter_cons, filter_nil. simpl.
      by rewrite !bool_decide_eq_true_2.
  - exists []. rewrite <- !(assoc_L (++)). simpl.
    split; [done|]. split; [|done].
    rewrite !filter_cons, filter_nil. simpl.
    by rewrite !bool_decide_eq_true_2.
Qed.
End ROMClaims.

(** ** [fit] over arbitrary collaborators *)



Section Frame.
Context {S V : Type} `{DuckTyped.Runtime S V}.

End Frame.



(** ** [RBF] before [fit], alone and under the orchestrator *)

Section Unfit.
Context {num interp DB Red : Type} `{Numeric num} `{Solver num interp}.
Context `{Database.t DB (ndarray num)} `{Reduction.t Red (ndarray num)}.

(** C6: a freshly constructed [RBF] has no interpolator; [predict] then
    raises TypeError (None is not callable), returns nothing and leaves
    the object as it was, so that every later [predict] fails alike; an
    orchestrator whose approximation is such an [RBF] fails in [predict]
    with that TypeError, at the first call it makes. *)
Theorem C6_predict_before_fit k s n e d (new_point : ndarray num) :
  let fresh : RBF.obj num interp := RBF.__init__ k s n e d in
  RBF.interpolator fresh = None ∧
  RBF.predict new_point fresh = (Raise TypeError, fresh) ∧
  ∀ (w : ReducedOrderModel.world (ndarray num) DB Red (RBF.obj num interp))
    (self : ReducedOrderModel.obj) (mu : ndarray num),
    ReducedOrderModel.approximations w
      (ReducedOrderModel.approximation self) = fresh →
    (ReducedOrderModel.predict self mu w).1 = Raise TypeError ∧
    ReducedOrderModel.log (ReducedOrderModel.predict self mu w).2 =
      ReducedOrderModel.log w ++
        [ReducedOrderModel.CallPredict
           (ReducedOrderModel.approximation self) mu (Raise TypeError)].
Proof.
  intros fresh. split; [done|]. split; [done|].
  intros w self mu E.
  unfold ReducedOrderModel.predict, ReducedOrderModel.call_predict,
    mbind, M_bind.
  simpl. by rewrite E.
Qed.
End Unfit.

Lemma C6_unfit_world :
  (ReducedOrderModel.predict rom0 unit_square unfit_world).1
    = Raise TypeError.
Proof.
  refine (proj1 (proj2 (proj2
    (C6_predict_before_fit (KernelName "thin_plate_spline") 0%float
       None None None unit_square)) unfit_world rom0 unit_square _)).
  reflexivity.
Defined.

(** Over a fresh [RBF] the first [predict] raises: it is invoked once,
    not twice. *)
Lemma C10_unfit_predict_once :
  (ReducedOrderModel.predict rom0 unit_square unfit_world).1
    = Raise TypeError ∧
  ReducedOrderModel.predict_calls (ReducedOrderModel.approximation rom0)
    (ReducedOrderModel.log
       (ReducedOrderModel.predict rom0 unit_square unfit_world).2) = 1.
Proof. split; by vm_compute. Qed.

(** ** The orchestrator on the example worlds *)

Lemma C1_table_world :
  ∃ w', ReducedOrderModel.predict rom0 [[0]; [1]]%Z
          (ReducedOrderModel.fit rom0 table_world).2
        = (Ok [[10; 30]; [20; 40]]%Z, w').
Proof.
  eexists.
  apply (C1_predict_composition (ReducedOrderModel.fit rom0 table_world).2).
  do 7 eexists. repeat split; reflexivity.
Defined.

Lemma C2_table_world :
  ∃ w', ReducedOrderModel.fit rom0 table_world = (Ok rom0, w').
Proof.
  eexists. apply (proj2 (C2_fit_delegation table_world rom0)).
  do 3 eexists. repeat split; reflexivity.
Defined.


(** The counting approximation answers [[0]] and then [[1]]: the value
    returned comes from the second answer. *)
Lemma C10_counter_world :
  predict_calls_in_example = 2 ∧
  (ReducedOrderModel.predict rom0 [[7]]%Z counter_world).1 = Ok [[10]]%Z.
Proof.
  assert (Approximation.predict [[7]]%Z
            (ReducedOrderModel.approximations counter_world
               (ReducedOrderModel.approximation rom0))
          = (Ok [[0]]%Z, Mock.Counter 1 (λ n, [[Z.of_nat n]])))
    as First by reflexivity.
  destruct (C10_predict_twice counter_world rom0 _ _ _ First)
    as (rest & Hlog & Hcount & _).
  split; [|reflexivity].
  exact (eq_trans (f_equal _ Hlog) Hcount).
Defined.

(** * Further properties *)

(** ** [RBF.fit] and [RBF.predict]: success, failure, and what is kept *)

Section RBFMore.
Context {num interp : Type} `{Numeric num} `{Solver num interp}.
Implicit Types (self : RBF.obj num interp) (points values : ndarray num).

(** X1: whatever its outcome, [fit] stores the points in [xi] and never
    changes the kernel, the smoothing, the neighbors or the degree. *)
Theorem fit_keeps_configuration points values self :
  let self' := (RBF.fit points values self).2 in
  RBF.xi self' = Some points ∧
  RBF.kernel self' = RBF.kernel self ∧
  RBF.smooth self' = RBF.smooth self ∧
  RBF.neighbors self' = RBF.neighbors self ∧
  RBF.degree self' = RBF.degree self.
Proof.
  intros self'. subst self'.
  destruct (RBF.epsilon self) as [eps|] eqn:E.
  - rewrite (fit_set _ _ _ _ E).
    by destruct (RBFInterpolator _ _ _ _ _ _ _).
  - rewrite (fit_unset _ _ _ E).
    destruct (RBF.default_epsilon points); [|done]. simpl.
    by destruct (RBFInterpolator _ _ _ _ _ _ _).
Qed.

(** X2: after a successful [fit] the object is consistent: its
    interpolator is what the solver builds from the points, the values
    and the object's own fields, epsilon included, and every [predict] is
    the call of that interpolator and leaves the object as it is. *)
Theorem fit_ok_consistent points values self self' :
  RBF.fit points values self = (Ok tt, self') →
  ∃ i,
    RBF.interpolator self' = Some i ∧
    RBFInterpolator points values (RBF.neighbors self') (RBF.smooth self')
      (RBF.kernel self') (RBF.epsilon self') (RBF.degree self') = Ok i ∧
    ∀ new_point,
      RBF.predict new_point self' = (interp_call i new_point, self').
Proof.
  assert (∀ i s, RBF.interpolator s = Some i →
            ∀ x, RBF.predict x s = (interp_call i x, s)) as Hp.
  { intros i s Ei x.
    unfold RBF.predict, mbind, M_bind, get, lift. simpl. by rewrite Ei. }
  destruct (RBF.epsilon self) as [eps|] eqn:E.
  - rewrite (fit_set _ _ _ _ E).
    destruct (RBFInterpolator _ _ _ _ _ _ _) as [i|] eqn:Ei; [|done].
    intros [= <-]. exists i. simpl. rewrite E. eauto.
  - rewrite (fit_unset _ _ _ E).
    destruct (RBF.default_epsilon points); [|done]. simpl.
    destruct (RBFInterpolator _ _ _ _ _ _ _) as [i|] eqn:Ei; [|done].
    intros [= <-]. exists i. simpl. eauto.
Qed.

(** X3: a [fit] that raises, in the default epsilon or in the solver,
    has already overwritten [xi] but leaves the interpolator of the last
    successful [fit] in place: [predict] goes on answering as before. *)
Theorem fit_failure_keeps_interpolator points values self e :
  (RBF.fit points values self).1 = Raise e →
  let self' := (RBF.fit points values self).2 in
  RBF.interpolator self' = RBF.interpolator self ∧
  RBF.xi self' = Some points ∧
  ∀ new_point,
    (RBF.predict new_point self').1 = (RBF.predict new_point self).1.
Proof.
  intros Hfail self'.
  assert (RBF.interpolator self' = RBF.interpolator self) as Hi.
  { subst self'. revert Hfail.
    destruct (RBF.epsilon self) as [eps|] eqn:E.
    - rewrite (fit_set _ _ _ _ E).
      by destruct (RBFInterpolator _ _ _ _ _ _ _).
    - rewrite (fit_unset _ _ _ E).
      destruct (RBF.default_epsilon points); [|done]. simpl.
      by destruct (RBFInterpolator _ _ _ _ _ _ _). }
  split; [done|]. split; [apply fit_keeps_configuration|].
  intros x. unfold RBF.predict, mbind, M_bind, get, lift. simpl.
  rewrite Hi. by destruct (RBF.interpolator self).
Qed.

Lemma default_epsilon_ok points h :
  RBF.default_epsilon points = Ok h →
  nonzero_ranges (rows points) ≠ [] ∧
  h = heuristic (dim points) (nonzero_ranges (rows points)).
Proof.
  intros Hd.
  destruct (decide (nonzero_ranges (rows points) = [])) as [Hnil|Hnz].
  - destruct (rows points) as [|x xs] eqn:Er.
    + by rewrite default_epsilon_no_point in Hd.
    + rewrite default_epsilon_degenerate in Hd; [done| |]; by rewrite Er.
  - split; [done|].
    rewrite (default_epsilon_heuristic _ Hnz) in Hd. by injection Hd.
Qed.

(** X4: [fit] returns exactly when an epsilon is at hand (set before the
    call, or computable because some dimension has a nonzero range) and
    the solver accepts the points, the values and that epsilon. *)
Theorem fit_returns_iff points values self :
  (RBF.fit points values self).1 = Ok tt ↔
  ∃ eps i,
    (RBF.epsilon self = Some eps ∨
     RBF.epsilon self = None ∧ nonzero_ranges (rows points) ≠ [] ∧
     eps = if kernel_in (RBF.kernel self)
                ["thin_plate_spline"; "cubic"; "quintic"]
           then n_one
           else heuristic (dim points) (nonzero_ranges (rows points))) ∧
    RBFInterpolator points values (RBF.neighbors self) (RBF.smooth self)
      (RBF.kernel self) (Some eps) (RBF.degree self) = Ok i.
Proof.
  destruct (RBF.epsilon self) as [eps|] eqn:E.
  - rewrite (fit_set _ _ _ _ E). split.
    + destruct (RBFInterpolator _ _ _ _ _ _ _) as [i|] eqn:Ei; [|done].
      intros _. exists eps, i. eauto.
    + intros (eps' & i & [[= <-]|[[=] _]] & ->). done.
  - rewrite (fit_unset _ _ _ E). split.
    + destruct (RBF.default_epsilon points) as [h|] eqn:Ed; [|done].
      apply default_epsilon_ok in Ed as [Hnz ->]. simpl.
      destruct (RBFInterpolator _ _ _ _ _ _ _) as [i|] eqn:Ei; [|done].
      intros _. eexists _, i. split; [right|exact Ei]. eauto.
    + intros (eps & i & [[=]|(_ & Hnz & ->)] & Ei).
      rewrite (default_epsilon_heuristic _ Hnz). simpl. by rewrite Ei.
Qed.

(** X5: with epsilon unset, [fit] on a point set without any point (and
    at least one dimension) raises the ValueError of [np.amax] before the
    solver is called; only [xi] has changed. *)
Theorem fit_no_point points values self :
  RBF.epsilon self = None → dim points ≠ 0 → rows points = [] →
  RBF.fit points values self =
    (Raise ValueError, RBF.set_xi (Some points) self).
Proof.
  intros E _ Hr.
  by rewrite (fit_unset _ _ _ E), (default_epsilon_no_point _ Hr).
Qed.

(** X6: with epsilon unset, a single training point cannot be fitted,
    whatever the kernel: every range is the difference of a coordinate
    with itself, and as soon as these are zero [fit] raises
    ZeroDivisionError. *)
Theorem fit_single_point points values self x :
  RBF.epsilon self = None → rows points = [x] →
  (∀ j, n_nonzero (n_sub (x !!! j) (x !!! j)) = false) →
  RBF.fit points values self =
    (Raise ZeroDivisionError, RBF.set_xi (Some points) self).
Proof.
  intros E Hr Hz.
  rewrite (fit_unset _ _ _ E), default_epsilon_degenerate; [done| |].
  - by rewrite Hr.
  - rewrite Hr. simpl. rewrite <- nonzero_entries_filter.
    apply nonzero_entries_nil. intros j.
    unfold ranges. rewrite lookup_fun_to_vec. simpl. apply Hz.
Qed.
End RBFMore.

Lemma fit_ok_consistent_example :
  RBF.predict one_point fitted_f = (Ok four_values, fitted_f).
Proof.
  destruct (fit_ok_consistent unit_square four_values default_f fitted_f)
    as (i & Ei & _ & Hp); [by vm_compute|].
  rewrite Hp. f_equal.
  assert (Some i = Some (unit_square, four_values)) as [= ->]; [|done].
  rewrite <- Ei. by vm_compute.
Defined.

(** A second fit with too few values fails in the solver; the first
    interpolator still answers. *)
Lemma fit_failure_example :
  (RBF.predict one_point (RBF.fit unit_square two_values fitted_f).2).1
    = Ok four_values.
Proof.
  assert ((RBF.fit unit_square two_values fitted_f).1 = Raise ValueError)
    as Hfail by (by vm_compute).
  rewrite (proj2 (proj2 (fit_failure_keeps_interpolator
             unit_square two_values fitted_f ValueError Hfail))).
  by vm_compute.
Defined.

Lemma fit_returns_example :
  (RBF.fit unit_square four_values multiquadric_f).1 = Ok tt.
Proof.
  apply fit_returns_iff. do 2 eexists. split.
  - right. split; [reflexivity|]. split; [by vm_compute|reflexivity].
  - by vm_compute.
Defined.

Lemma fit_no_point_example :
  RBF.fit no_points two_values default_f
    = (Raise ValueError, RBF.set_xi (Some no_points) default_f).
Proof. by apply fit_no_point. Defined.

Lemma fit_single_point_example :
  RBF.fit one_point one_value multiquadric_f
    = (Raise ZeroDivisionError, RBF.set_xi (Some one_point) multiquadric_f).
Proof.
  refine (fit_single_point one_point one_value multiquadric_f _
            eq_refl eq_refl _).
  intros j. inv_fin j; [by vm_compute|].
  intros j. inv_fin j; [by vm_compute|].
  intros j. inv_fin j.
Defined.

(** ** The orchestrator: failures, frame, repeated queries *)

Section ROMMore.
Context {Arr DB Red App : Type}.
Context `{Database.t DB Arr} `{Reduction.t Red Arr}
        `{Approximation.t App Arr} `{Transpose Arr}.
Implicit Types (w : ReducedOrderModel.world Arr DB Red App).
Implicit Types (self : ReducedOrderModel.obj) (mu out : Arr).

Import ReducedOrderModel.

Ltac run :=
  unfold ReducedOrderModel.predict, ReducedOrderModel.fit,
    call_predict, call_expand, call_inverse,
    call_reduce, call_fit, attr, print, emit, mbind, M_bind, mret, M_ret,
    modify;
  simpl.



End ROMMore.



(** ** The orchestrator over an [RBF] approximation *)

Section ROMoverRBF.
Context {num interp DB Red : Type} `{Numeric num} `{Solver num interp}.
Context `{Database.t DB (ndarray num)} `{Reduction.t Red (ndarray num)}.

(** X12: when the orchestrator's [fit] returns over an [RBF]
    approximation, that [RBF] holds the database's parameters in [xi] and
    the interpolator the solver built from the parameters and the
    reduced, transposed snapshots; from then on the orchestrator's
    [predict] is the scaler's [inverse] of the reduction's [expand] of
    that interpolator's answer, each failure passing through. *)
Theorem rom_over_rbf
    (w w' : ReducedOrderModel.world (ndarray num) DB Red (RBF.obj num interp))
    (self r : ReducedOrderModel.obj) :
  ReducedOrderModel.fit self w = (Ok r, w') →
  let db := ReducedOrderModel.databases w (ReducedOrderModel.database self) in
  let rbf :=
    ReducedOrderModel.approximations w'
      (ReducedOrderModel.approximation self) in
  ∃ values i,
    (Reduction.reduce (T (Database.snapshots db))
       (ReducedOrderModel.reductions w
          (ReducedOrderModel.reduction self))).1 = Ok values ∧
    RBF.xi rbf = Some (Database.parameters db) ∧
    RBF.interpolator rbf = Some i ∧
    RBFInterpolator (Database.parameters db) values (RBF.neighbors rbf)
      (RBF.smooth rbf) (RBF.kernel rbf) (RBF.epsilon rbf) (RBF.degree rbf)
      = Ok i ∧
    ∀ mu,
      (ReducedOrderModel.predict self mu w').1 =
        match interp_call i mu with
        | Raise e => Raise e
        | Ok latent =>
            match (Reduction.expand latent
                     (ReducedOrderModel.reductions w'
                        (ReducedOrderModel.reduction self))).1 with
            | Raise e => Raise e
            | Ok expanded =>
                (Database.scaler_snapshots_inverse expanded
                   (ReducedOrderModel.databases w'
                      (ReducedOrderModel.database self))).1
            end
        end.
Proof.
  intros Hfit db rbf.
  apply fit_returns in Hfit as (values & r' & a' & Er & Ea & _ & ->).
  fold db in Er, Ea. subst rbf. simpl. rewrite fn_lookup_insert.
  change (RBF.fit (Database.parameters db) values
            (ReducedOrderModel.approximations w
               (ReducedOrderModel.approximation self)) = (Ok tt, a')) in Ea.
  destruct (fit_ok_consistent _ _ _ _ Ea) as (i & Ei & Es & Hp).
  exists values, i. rewrite Er. split; [done|]. split.
  { pose proof (fit_keeps_configuration (Database.parameters db) values
                  (ReducedOrderModel.approximations w
                     (ReducedOrderModel.approximation self))) as Hk.
    rewrite Ea in Hk. apply Hk. }
  split; [done|]. split; [done|]. intros mu.
  unfold ReducedOrderModel.predict, ReducedOrderModel.call_predict,
    ReducedOrderModel.call_expand, ReducedOrderModel.call_inverse,
    ReducedOrderModel.print, ReducedOrderModel.emit, mbind, M_bind, modify.
  simpl. rewrite fn_lookup_insert.
  change (Approximation.predict mu a') with (RBF.predict mu a').
  rewrite Hp.
  destruct (interp_call i mu) as [latent|e] eqn:Ec; simpl; [|done].
  rewrite fn_lookup_insert.
  change (Approximation.predict mu a') with (RBF.predict mu a').
  rewrite Hp, Ec. simpl.
  destruct (Reduction.expand latent _) as [[expanded|e] r'']; simpl; [|done].
  by destruct (Database.scaler_snapshots_inverse expanded _) as [res d'].
Qed.
End ROMoverRBF.

Lemma rom_over_rbf_example :
  RBF.xi (ReducedOrderModel.approximations
            (ReducedOrderModel.fit rom0 rbf_world).2 2)
  = Some unit_square.
Proof.
  destruct (rom_over_rbf rbf_world (ReducedOrderModel.fit rom0 rbf_world).2
              rom0 rom0)
    as (values & i & _ & Hxi & _); [by vm_compute|].
  exact Hxi.
Defined.
